(** * Identity resolution and access control of the BigQuery API service

    A shallow embedding of [app/auth.py], the exception classes of
    [app/exceptions.py] it raises and the settings of [app/config.py] it
    reads, followed by the properties of the gateway, the resolver, the
    identity cache and the scope guard.

    Conventions.
    - Python values whose type the code does not fix (the fields of
      Firestore documents) are values of [PyVal]; truthiness, [dict.get]
      and the [in] operator are written out.
    - Effects are explicit: a computation is a function from the module
      state (the [user_cache], the number of timer reads so far and the
      trace of calls to collaborators) to an outcome and a new state. An
      outcome is a value or a raised exception; state changes made before
      a [raise] persist, as in Python.
    - The collaborators that are not part of the repository (the Firebase
      verifier, the Firestore client, the clocks, the downstream
      application) are fields of a [World] record over which every theorem
      quantifies. *)

From Stdlib Require Import Ascii String QArith Qround.
From stdpp Require Import gmap strings list fin_maps pretty.

Set Warnings "-register-all".

(* ===================================================================== *)
(** ** Python values and string operations                                *)
(* ===================================================================== *)

Module Py.

(** The values a Firestore document can hold, as far as the code
    inspects them: null, booleans, integers, strings, arrays and maps.
    Floats, timestamps, references and bytes are left out. *)
Inductive PyVal : Type :=
| PNone
| PBool (b : bool)
| PInt (z : Z)
| PStr (s : string)
| PList (l : list PyVal)
| PDict (d : gmap string PyVal).

(** [bool(v)]: what [not v] and [v or w] test. *)
Definition truthy (v : PyVal) : bool :=
  match v with
  | PNone => false
  | PBool b => b
  | PInt z => negb (z =? 0)%Z
  | PStr s => negb (String.eqb s "")
  | PList l => match l with [] => false | _ => true end
  | PDict d => negb (bool_decide (d = ∅))
  end.

(** [type(v).__name__] *)
Definition type_name (v : PyVal) : string :=
  match v with
  | PNone => "NoneType"
  | PBool _ => "bool"
  | PInt _ => "int"
  | PStr _ => "str"
  | PList _ => "list"
  | PDict _ => "dict"
  end.

(** [d.get(k)] and [d.get(k, default)] on a dict. *)
Definition dict_get (d : gmap string PyVal) (k : string) : PyVal :=
  default PNone (d !! k).

Definition dict_get_default (d : gmap string PyVal) (k : string) (dflt : PyVal) : PyVal :=
  default dflt (d !! k).

(** [a or b] *)
Definition py_or (a b : PyVal) : PyVal := if truthy a then a else b.

(** [s in l] for a string [s] and a list [l]: [str.__eq__] holds only
    against an equal [str]. *)
Definition str_eq_val (s : string) (v : PyVal) : bool :=
  match v with
  | PStr t => String.eqb s t
  | _ => false
  end.

Definition str_in_list (s : string) (l : list PyVal) : bool :=
  existsb (str_eq_val s) l.

(** [c in s] for a one-character string [c]. *)
Fixpoint str_contains (c : ascii) (s : string) : bool :=
  match s with
  | EmptyString => false
  | String a r => Ascii.eqb a c || str_contains c r
  end.

(** [s.split(sep)] for a one-character separator. *)
Fixpoint str_split (sep : ascii) (s : string) : list string :=
  match s with
  | EmptyString => [EmptyString]
  | String a r =>
      if Ascii.eqb a sep then EmptyString :: str_split sep r
      else match str_split sep r with
           | h :: t => String a h :: t
           | [] => [String a EmptyString]
           end
  end.

(** [s[n:]] *)
Fixpoint str_drop (n : nat) (s : string) : string :=
  match n, s with
  | O, _ => s
  | S _, EmptyString => EmptyString
  | S m, String _ r => str_drop m r
  end.

(** [s.startswith(p)] *)
Definition startswith (s p : string) : bool := String.prefix p s.

(** [int(x)] on a float: truncation towards zero. *)
Definition py_int (x : Q) : Z :=
  if Qle_bool 0 x then Qfloor x else Qceiling x.

(** [a < b] on clock readings. *)
Definition Qltb (a b : Q) : bool := negb (Qle_bool b a).

End Py.
Export Py.

(* ===================================================================== *)
(** ** app/exceptions.py                                                  *)
(* ===================================================================== *)

Module Exceptions.

Inductive ExcClass : Set :=
| BigQueryAPIException
| AuthenticationError
| AuthorizationError
| ValidationError
| BigQueryError
| RateLimitError
| MultiTenancyError
| ConfigurationError
| InvalidTokenError
| MissingTokenError
| UserNotFoundError
| CompanyNotFoundError
| ProjectAccessDeniedError
| InvalidQueryError
| QueryTimeoutError
| QueryTooLargeError.

#[global] Instance ExcClass_eq_dec : EqDecision ExcClass.
Proof. solve_decision. Defined.

(** The class a class is declared to extend; [BigQueryAPIException]
    extends FastAPI's [HTTPException], which is outside the hierarchy. *)
Definition base (c : ExcClass) : option ExcClass :=
  match c with
  | BigQueryAPIException => None
  | AuthenticationError | AuthorizationError | ValidationError
  | BigQueryError | RateLimitError | MultiTenancyError
  | ConfigurationError => Some BigQueryAPIException
  | InvalidTokenError | MissingTokenError | UserNotFoundError =>
      Some AuthenticationError
  | CompanyNotFoundError | ProjectAccessDeniedError =>
      Some AuthorizationError
  | InvalidQueryError => Some ValidationError
  | QueryTimeoutError | QueryTooLargeError => Some BigQueryError
  end.

(** [issubclass(c, d)]; the hierarchy is two levels deep. *)
Definition issubclass (c d : ExcClass) : bool :=
  bool_decide (c = d)
  || bool_decide (base c = Some d)
  || bool_decide (base c ≫= base = Some d).

(** An instance of one of the classes: the attributes [HTTPException]
    and [BigQueryAPIException.__init__] set ([headers] is [None] at every
    raise of the authentication layer). *)
Record HTTPException : Set := mkHTTPException {
  exc_class : ExcClass;
  status_code : Z;
  detail : string;
  code : string
}.

(** [code or dflt] on an [Optional[str]]. *)
Definition code_or (c : option string) (dflt : string) : string :=
  match c with
  | Some s => if String.eqb s "" then dflt else s
  | None => dflt
  end.

Definition BigQueryAPIException_init
    (cls : ExcClass) (status : Z) (dtl : string) (c : option string) : HTTPException :=
  mkHTTPException cls status dtl (code_or c "BIGQUERY_ERROR").

Definition AuthenticationError_init
    (cls : ExcClass) (dtl : string) (c : option string) : HTTPException :=
  BigQueryAPIException_init cls 401 dtl (Some (code_or c "AUTH_ERROR")).

Definition AuthorizationError_init
    (cls : ExcClass) (dtl : string) (c : option string) : HTTPException :=
  BigQueryAPIException_init cls 403 dtl (Some (code_or c "AUTHORIZATION_ERROR")).

(** [AuthenticationError(detail)] and [AuthorizationError(detail)] *)
Definition new_AuthenticationError (dtl : string) : HTTPException :=
  AuthenticationError_init AuthenticationError dtl None.

Definition new_AuthorizationError (dtl : string) : HTTPException :=
  AuthorizationError_init AuthorizationError dtl None.

Definition new_InvalidTokenError : HTTPException :=
  AuthenticationError_init InvalidTokenError
    "Invalid or expired authentication token" (Some "INVALID_TOKEN").

Definition new_MissingTokenError : HTTPException :=
  AuthenticationError_init MissingTokenError
    "Authentication token not provided" (Some "MISSING_TOKEN").

Definition new_UserNotFoundError : HTTPException :=
  AuthenticationError_init UserNotFoundError
    "User not found in database" (Some "USER_NOT_FOUND").

Definition new_CompanyNotFoundError : HTTPException :=
  AuthorizationError_init CompanyNotFoundError
    "Company not found or access denied" (Some "COMPANY_NOT_FOUND").

Definition new_ProjectAccessDeniedError (project_id : string) : HTTPException :=
  AuthorizationError_init ProjectAccessDeniedError
    ("Access denied to project: " +:+ project_id) (Some "PROJECT_ACCESS_DENIED").

(** Whatever can be raised: an instance of the hierarchy above, or any
    other Python exception, of which only the class name and [str(e)]
    matter. *)
Inductive Exception : Set :=
| HTTPExc (e : HTTPException)
| PyExc (kind : string) (msg : string).

(** [isinstance(e, cls)] for a class of the hierarchy. *)
Definition isinstance (e : Exception) (cls : ExcClass) : bool :=
  match e with
  | HTTPExc h => issubclass (exc_class h) cls
  | PyExc _ _ => false
  end.

(** [str(e)]; an [HTTPException] prints as its status and detail. *)
Definition str_exc (e : Exception) : string :=
  match e with
  | HTTPExc h => pretty (status_code h) +:+ ": " +:+ detail h
  | PyExc _ msg => msg
  end.

(** The HTTP status class of a status code: 4 for 4xx, 5 for 5xx. *)
Definition status_class (status : Z) : Z := (status / 100)%Z.

End Exceptions.
Export Exceptions.

(* ===================================================================== *)
(** ** app/config.py                                                      *)
(* ===================================================================== *)

Module Config.

(** The fields of [Settings] the authentication layer can see. *)
Record Settings : Type := mkSettings {
  gcp_project_id : string;
  firebase_project_id : string;
  accessible_projects : list string;
  super_admin_domains : list string;
  cache_ttl : Z
}.

(** The declared defaults, for the two required fields given. *)
Definition default_settings (gcp firebase : string) : Settings :=
  {| gcp_project_id := gcp;
     firebase_project_id := firebase;
     accessible_projects := [];
     super_admin_domains := ["be-luma.com"];
     cache_ttl := 300 |}.

End Config.

(* ===================================================================== *)
(** ** The identity cache: cachetools' TTLCache                           *)
(* ===================================================================== *)

(** [cachetools] is a third-party package. Its [TTLCache] is modelled after
    its documented behaviour: every item carries an expiry time, the time
    of its insertion plus [ttl]; an expired item is no longer accessible
    and is removed by the next mutating operation; when room is needed the
    least recently used items are discarded first. [links] lists the items
    least recently used first. *)
Module TTLCache.
Section Cache.
Context {V : Type}.

Record Link : Type := mkLink {
  link_key : string;
  link_value : V;
  link_expires : Q
}.

Record t : Type := mkCache {
  maxsize : nat;
  ttl : Q;
  links : list Link
}.

(** [TTLCache(maxsize, ttl)] *)
Definition new (maxsize : nat) (ttl : Q) : t := mkCache maxsize ttl [].

Fixpoint find (k : string) (ls : list Link) : option Link :=
  match ls with
  | [] => None
  | l :: r => if String.eqb (link_key l) k then Some l else find k r
  end.

Definition remove (k : string) (ls : list Link) : list Link :=
  filter (λ l, link_key l ≠ k) ls.

Definition live (now : Q) (l : Link) : bool := Qltb now (link_expires l).

(** [key in cache], the timer reading [now]. Nothing is reordered or
    removed. *)
Definition contains (c : t) (now : Q) (k : string) : bool :=
  match find k (links c) with
  | Some l => live now l
  | None => false
  end.

(** [cache[key]]: [None] stands for [KeyError]. The access makes the
    item the most recently used. *)
Definition getitem (c : t) (now : Q) (k : string) : option V * t :=
  match find k (links c) with
  | None => (None, c)
  | Some l =>
      let c' := mkCache (maxsize c) (ttl c) (remove k (links c) ++ [l]) in
      if live now l then (Some (link_value l), c') else (None, c')
  end.

(** [cache.expire(now)] *)
Definition expire (c : t) (now : Q) : t :=
  mkCache (maxsize c) (ttl c) (List.filter (live now) (links c)).

(** [cache[key] = value]: [None] stands for [ValueError], raised when
    one item is already larger than the cache. *)
Definition setitem (c : t) (now : Q) (k : string) (v : V) : option t :=
  let c1 := expire c now in
  if (maxsize c <? 1)%nat then None
  else
    let kept :=
      match find k (links c1) with
      | Some _ => remove k (links c1)
      | None => drop (length (links c1) + 1 - maxsize c) (links c1)
      end in
    Some (mkCache (maxsize c) (ttl c)
            (kept ++ [mkLink k v (now + ttl c)%Q])).

End Cache.
Arguments Link : clear implicits.
Arguments t : clear implicits.
End TTLCache.

(* ===================================================================== *)
(** ** app/auth.py                                                        *)
(* ===================================================================== *)

Module Auth.

(** *** UserInfo *)

Record UserInfo : Type := mkUserInfo {
  uid : string;
  email : option string;
  email_verified : PyVal;
  company_id : PyVal;
  gcp_project_id : PyVal;
  company_name : PyVal;
  is_super_admin : bool;
  accessible_projects : list PyVal;
  permissions : PyVal;
  client_metadata : gmap string PyVal
}.

(** [UserInfo.__init__]. An argument left out is [[]] for
    [accessible_projects], [PNone] for [permissions] and the empty dict
    for [client_metadata]; [or] then puts the default in. *)
Definition UserInfo_init
    (uid : string) (email : option string) (email_verified : PyVal)
    (company_id gcp_project_id company_name : PyVal)
    (is_super_admin : bool) (accessible_projects : list PyVal)
    (permissions : PyVal) (client_metadata : gmap string PyVal) : UserInfo :=
  {| uid := uid;
     email := email;
     email_verified := email_verified;
     company_id := company_id;
     gcp_project_id := gcp_project_id;
     company_name := company_name;
     is_super_admin := is_super_admin;
     accessible_projects :=
       match accessible_projects with
       | [] => [gcp_project_id]
       | _ => accessible_projects
       end;
     permissions := py_or permissions (PList [PStr "read"]);
     client_metadata := client_metadata |}.

Definition can_access_project (u : UserInfo) (project_id : string) : bool :=
  is_super_admin u || str_in_list project_id (accessible_projects u).

(** *** Collaborators *)

(** What [firebase_auth.verify_id_token] returns: the claims the code
    reads. Firebase always sets [uid]; the others are read with [get]. *)
Record DecodedToken : Type := mkDecodedToken {
  tok_uid : string;
  tok_email : option string;
  tok_email_verified : option bool;
  tok_exp : option Z;
  tok_iat : option Z
}.

Inductive VerifyOutcome : Type :=
| Verified (decoded : DecodedToken)
| InvalidIdTokenError
| ExpiredIdTokenError
| RevokedIdTokenError
| VerifyFailed (kind msg : string).

(** What [db.collection(c).document(k).get()] does: it raises, or returns
    a snapshot, whose [to_dict()] is [Some] exactly when [exists]. *)
Inductive FetchOutcome : Type :=
| FetchFailed (kind msg : string)
| Snapshot (data : option (gmap string PyVal)).

Record Request : Type := mkRequest {
  url_path : string;
  authorization : option string
}.

Record Response : Type := mkResponse {
  resp_status : Z;
  resp_body : string
}.

Inductive Outcome (A : Type) : Type :=
| Return (a : A)
| Raise (e : Exception).
Arguments Return {A} a.
Arguments Raise {A} e.

Record World : Type := mkWorld {
  verify_id_token : string → VerifyOutcome;
  firestore_get : string → PyVal → FetchOutcome;
  (** the n-th reading of [time.monotonic], the cache's timer *)
  monotonic : nat → Q;
  (** [time.time()] *)
  time_time : Q;
  (** the rest of the application, given [request.state.user] *)
  downstream : Request → option UserInfo → Outcome Response
}.

(** *** Module state and the monad of effects *)

Inductive Event : Type :=
| EvVerify (token : string)
| EvFetch (collection : string) (document : PyVal)
| EvCallNext (user : option UserInfo).

Record State : Type := mkState {
  user_cache : TTLCache.t UserInfo;
  timer_reads : nat;
  trace : list Event
}.

Definition M (A : Type) : Type := State → Outcome A * State.

#[global] Instance M_ret : MRet M := λ A a s, (Return a, s).

#[global] Instance M_bind : MBind M := λ A B f m s,
  match m s with
  | (Return a, s') => f a s'
  | (Raise e, s') => (Raise e, s')
  end.

Definition raise {A : Type} (e : Exception) : M A := λ s, (Raise e, s).

(** [try: m  except Exception as e: h e] *)
Definition try_except {A : Type} (m : M A) (h : Exception → M A) : M A := λ s,
  match m s with
  | (Return a, s') => (Return a, s')
  | (Raise e, s') => h e s'
  end.

Definition lift_outcome {A : Type} (o : Outcome A) : M A := λ s, (o, s).

Definition emit (ev : Event) : M unit := λ s,
  (Return (), mkState (user_cache s) (timer_reads s) (trace s ++ [ev])).

Definition read_timer (w : World) : M Q := λ s,
  (Return (monotonic w (timer_reads s)),
   mkState (user_cache s) (S (timer_reads s)) (trace s)).

Definition set_cache (c : TTLCache.t UserInfo) : M unit := λ s,
  (Return (), mkState c (timer_reads s) (trace s)).

Definition get_cache : M (TTLCache.t UserInfo) := λ s, (Return (user_cache s), s).

(** [cache_key in user_cache]. A timer reading is consumed whether or not
    the key has an entry to compare it with; as the theorems range over all
    clocks, a reading that is not used changes nothing. *)
Definition cache_contains (w : World) (k : string) : M bool :=
  now ← read_timer w; c ← get_cache; mret (TTLCache.contains c now k).

(** [user_cache[cache_key]] *)
Definition cache_getitem (w : World) (k : string) : M UserInfo :=
  now ← read_timer w; c ← get_cache;
  let '(r, c') := TTLCache.getitem c now k in
  _ ← set_cache c';
  match r with
  | Some v => mret v
  | None => raise (PyExc "KeyError" ("'" +:+ k +:+ "'"))
  end.

(** [user_cache[cache_key] = user_info] *)
Definition cache_setitem (w : World) (k : string) (v : UserInfo) : M unit :=
  now ← read_timer w; c ← get_cache;
  match TTLCache.setitem c now k v with
  | Some c' => set_cache c'
  | None =>
      (* the expired items have been removed by then *)
      _ ← set_cache (TTLCache.expire c now);
      raise (PyExc "ValueError" "value too large")
  end.

(** The module-level [user_cache = TTLCache(maxsize=1000, ttl=300)],
    created once [settings = get_settings()] is there. *)
Definition module_init (settings : Config.Settings) : State :=
  mkState (TTLCache.new 1000 300) 0 [].

(** *** validate_firebase_token *)

(** The dict [validate_firebase_token] returns. *)
Record FirebaseUser : Type := mkFirebaseUser {
  fb_uid : string;
  fb_email : option string;
  fb_email_verified : bool;
  fb_exp : option Z;
  fb_iat : option Z
}.

Definition validate_firebase_token (w : World) (token : string) : M FirebaseUser :=
  _ ← emit (EvVerify token);
  match verify_id_token w token with
  | Verified decoded =>
      mret (mkFirebaseUser (tok_uid decoded) (tok_email decoded)
              (default false (tok_email_verified decoded))
              (tok_exp decoded) (tok_iat decoded))
  | InvalidIdTokenError | ExpiredIdTokenError | RevokedIdTokenError =>
      raise (HTTPExc new_InvalidTokenError)
  | VerifyFailed _ msg =>
      raise (HTTPExc (new_AuthenticationError
                        ("Token validation failed: " +:+ msg)))
  end.

(** *** get_user_info *)

(** [email.split("@")[-1] if "@" in email else ""] *)
Definition email_domain (email : string) : string :=
  if str_contains "@" email then default "" (last (str_split "@" email)) else "".

(** Lines 143-146: the super-admin test. *)
Definition super_admin_test (settings : Config.Settings) (email : option string) : bool :=
  match email with
  | Some e =>
      if String.eqb e "" then false
      else bool_decide (email_domain e ∈ Config.super_admin_domains settings)
  | None => false
  end.

Definition fetch (w : World) (collection : string) (document : PyVal)
  : M (option (gmap string PyVal)) :=
  _ ← emit (EvFetch collection document);
  match firestore_get w collection document with
  | FetchFailed kind msg => raise (PyExc kind msg)
  | Snapshot data => mret data
  end.

(** [client_data.get("onboardingData", {}).get("companyName", "Unknown Company")] *)
Definition company_name_of (client_data : gmap string PyVal) : M PyVal :=
  match dict_get_default client_data "onboardingData" (PDict ∅) with
  | PDict d => mret (dict_get_default d "companyName" (PStr "Unknown Company"))
  | v => raise (PyExc "AttributeError"
                  ("'" +:+ type_name v +:+ "' object has no attribute 'get'"))
  end.

(** Lines 142-200: the part of the [try] block that builds [user_info]. *)
Definition build_user_info (w : World) (settings : Config.Settings)
    (uid : string) (email : option string) : M UserInfo :=
  if super_admin_test settings email then
    mret (UserInfo_init uid email (PBool true) (PStr "super-admin")
            (PStr (Config.gcp_project_id settings)) (PStr "Be-Luma Admin") true
            (PStr <$> match Config.accessible_projects settings with
                      | [] => [Config.gcp_project_id settings]
                      | ps => ps
                      end)
            (PList [PStr "read"; PStr "write"; PStr "admin"]) ∅)
  else
    user_doc ← fetch w "users" (PStr uid);
    match user_doc with
    | None => raise (HTTPExc new_UserNotFoundError)
    | Some user_data =>
        let company_id := dict_get user_data "company_id" in
        if negb (truthy company_id) then
          raise (HTTPExc (new_AuthorizationError "User not associated with any company"))
        else
          client_doc ← fetch w "clients" company_id;
          match client_doc with
          | None => raise (HTTPExc new_CompanyNotFoundError)
          | Some client_data =>
              let gcp_project_id := dict_get client_data "gcpProjectId" in
              if negb (truthy gcp_project_id) then
                raise (HTTPExc (new_AuthorizationError
                                  "Company does not have an associated GCP project"))
              else
                company_name ← company_name_of client_data;
                mret (UserInfo_init uid email
                        (dict_get_default user_data "email_verified" (PBool false))
                        company_id gcp_project_id company_name false
                        [gcp_project_id]
                        (dict_get_default user_data "permissions" (PList [PStr "read"]))
                        (<["status" := dict_get client_data "status"]>
                           (<["created_at" := dict_get client_data "createdAt"]>
                              (<["bigquery_dataset_id" :=
                                   dict_get client_data "bigQueryDatasetId"]> ∅))))
          end
    end.

(** Lines 206-210: the [except] clauses of [get_user_info]. *)
Definition get_user_info_handler (e : Exception) : M UserInfo :=
  if isinstance e UserNotFoundError || isinstance e CompanyNotFoundError
     || isinstance e AuthorizationError
  then raise e
  else raise (HTTPExc (new_AuthenticationError
                         ("Failed to get user information: " +:+ str_exc e))).

Definition cache_key_of (uid : string) : string := "user_" +:+ uid.

Definition get_user_info (w : World) (settings : Config.Settings)
    (uid : string) (email : option string) : M UserInfo :=
  let cache_key := cache_key_of uid in
  hit ← cache_contains w cache_key;
  if hit : bool then cache_getitem w cache_key
  else
    try_except
      (user_info ← build_user_info w settings uid email;
       _ ← cache_setitem w cache_key user_info;
       mret user_info)
      get_user_info_handler.

(** *** AuthMiddleware *)

Definition public_paths : list string :=
  ["/health"; "/health/"; "/health/live"; "/health/ready";
   "/metrics"; "/"; "/docs"; "/redoc"; "/openapi.json"].

(** [any(request.url.path.startswith(path) for path in self.public_paths)] *)
Definition is_public_path (path : string) : bool :=
  existsb (startswith path) public_paths.

(** [await call_next(request)], [request.state.user] being [user]. *)
Definition call_next (w : World) (request : Request) (user : option UserInfo) : M Response :=
  _ ← emit (EvCallNext user);
  lift_outcome (downstream w request user).

(** Lines 266-283: the [except] clauses of [dispatch]. *)
Definition dispatch_handler (e : Exception) : M Response :=
  if isinstance e AuthenticationError || isinstance e AuthorizationError
  then raise e
  else raise (HTTPExc (new_AuthenticationError "Authentication service unavailable")).

(** Lines 243-264: what [dispatch] does once the token has been verified. *)
Definition authenticated (w : World) (settings : Config.Settings)
    (request : Request) (firebase_user : FirebaseUser) : M Response :=
  let now := py_int (time_time w) in
  match fb_exp firebase_user with
  | None =>
      raise (PyExc "TypeError"
               "'<=' not supported between instances of 'NoneType' and 'int'")
  | Some exp =>
      if (exp <=? now)%Z then raise (HTTPExc new_InvalidTokenError)
      else
        user_info ← get_user_info w settings
                      (fb_uid firebase_user) (fb_email firebase_user);
        call_next w request (Some user_info)
  end.

Definition dispatch (w : World) (settings : Config.Settings) (request : Request)
  : M Response :=
  if is_public_path (url_path request) then call_next w request None
  else
    try_except
      (match authorization request with
       | None => raise (HTTPExc new_MissingTokenError)
       | Some auth_header =>
           if String.eqb auth_header "" || negb (startswith auth_header "Bearer ")
           then raise (HTTPExc new_MissingTokenError)
           else
             let token := str_drop 7 auth_header in
             if String.eqb token "" then raise (HTTPExc new_MissingTokenError)
             else
               firebase_user ← validate_firebase_token w token;
               authenticated w settings request firebase_user
       end)
      dispatch_handler.

(** *** Dependencies of the route handlers *)

(** [request.state.user] is [Some] once the middleware has attached it. *)
Definition get_current_user (state_user : option UserInfo) : Outcome UserInfo :=
  match state_user with
  | None => Raise (HTTPExc (new_AuthenticationError "User not authenticated"))
  | Some user => Return user
  end.

Definition require_project_access (project_id : string)
    (state_user : option UserInfo) : Outcome UserInfo :=
  match get_current_user state_user with
  | Raise e => Raise e
  | Return user =>
      if negb (can_access_project user project_id)
      then Raise (HTTPExc (new_ProjectAccessDeniedError project_id))
      else Return user
  end.

(** *** Reading an outcome and a trace *)

Definition returned {A : Type} (o : Outcome A) : option A :=
  match o with
  | Return a => Some a
  | Raise _ => None
  end.

Definition raised {A : Type} (o : Outcome A) : option Exception :=
  match o with
  | Return _ => None
  | Raise e => Some e
  end.


(** The events a run appended to the trace of its initial state. *)
Definition new_events (s s' : State) : list Event :=
  drop (length (trace s)) (trace s').

End Auth.
Export Auth.

(* ===================================================================== *)
(** ** Vocabulary of the statements                                       *)
(* ===================================================================== *)

Module Runs.
Import TTLCache.

(** The cache parameters of every state the module can be in. *)
Definition configured (s : State) : Prop :=
  maxsize (user_cache s) = 1000%nat ∧ ttl (user_cache s) = 300%Q.

(** The state after one more timer reading, and after one more event. *)
Definition tick (s : State) : State :=
  mkState (user_cache s) (S (timer_reads s)) (trace s).

Definition logged (ev : Event) (s : State) : State :=
  mkState (user_cache s) (timer_reads s) (trace s ++ [ev]).

Definition with_cache (c : TTLCache.t UserInfo) (s : State) : State :=
  mkState c (timer_reads s) (trace s).

(** The reading the next timer call returns. *)
Definition next_reading (w : World) (s : State) : Q := monotonic w (timer_reads s).

(** No live entry for [uid] at the reading [get_user_info] takes first. *)
Definition cache_miss (w : World) (s : State) (uid : string) : Prop :=
  contains (user_cache s) (next_reading w s) (cache_key_of uid) = false.

(** The entry under which [uid] is cached, if any. *)
Definition cached (s : State) (uid : string) : option (Link UserInfo) :=
  find (cache_key_of uid) (links (user_cache s)).

(** The exception the [except] clauses of [get_user_info] and of [dispatch]
    raise for the exception caught. *)
Definition get_user_info_except (e : Exception) : Exception :=
  if isinstance e UserNotFoundError || isinstance e CompanyNotFoundError
     || isinstance e AuthorizationError
  then e
  else HTTPExc (new_AuthenticationError
                  ("Failed to get user information: " +:+ str_exc e)).

Definition dispatch_except (e : Exception) : Exception :=
  if isinstance e AuthenticationError || isinstance e AuthorizationError
  then e
  else HTTPExc (new_AuthenticationError "Authentication service unavailable").

(** The identity built for a super admin. *)
Definition super_admin_identity (settings : Config.Settings)
    (uid email : string) : UserInfo :=
  {| uid := uid;
     email := Some email;
     email_verified := PBool true;
     company_id := PStr "super-admin";
     gcp_project_id := PStr (Config.gcp_project_id settings);
     company_name := PStr "Be-Luma Admin";
     is_super_admin := true;
     accessible_projects :=
       PStr <$> match Config.accessible_projects settings with
                | [] => [Config.gcp_project_id settings]
                | ps => ps
                end;
     permissions := PList [PStr "read"; PStr "write"; PStr "admin"];
     client_metadata := ∅ |}.

(** The identity built from a user document and its tenant document. *)
Definition tenant_identity (uid : string) (email : option string)
    (user_data client_data onboarding : gmap string PyVal) : UserInfo :=
  {| uid := uid;
     email := email;
     email_verified := dict_get_default user_data "email_verified" (PBool false);
     company_id := dict_get user_data "company_id";
     gcp_project_id := dict_get client_data "gcpProjectId";
     company_name := dict_get_default onboarding "companyName" (PStr "Unknown Company");
     is_super_admin := false;
     accessible_projects := [dict_get client_data "gcpProjectId"];
     permissions :=
       py_or (dict_get_default user_data "permissions" (PList [PStr "read"]))
         (PList [PStr "read"]);
     client_metadata :=
       <["status" := dict_get client_data "status"]>
         (<["created_at" := dict_get client_data "createdAt"]>
            (<["bigquery_dataset_id" := dict_get client_data "bigQueryDatasetId"]> ∅)) |}.

(** How many Tenant Directory resolutions a list of events holds: each
    starts by fetching the user document. *)
Definition is_user_fetch (ev : Event) : bool :=
  match ev with
  | EvFetch collection _ => String.eqb collection "users"
  | _ => false
  end.

Definition directory_resolutions (evs : list Event) : nat :=
  length (List.filter is_user_fetch evs).

(** The states the module can be in: those its functions lead to from the
    state at import. *)
Inductive reachable (settings : Config.Settings) : State → Prop :=
| reach_init : reachable settings (module_init settings)
| reach_get_user_info w uid email s :
    reachable settings s →
    reachable settings (snd (get_user_info w settings uid email s))
| reach_dispatch w request s :
    reachable settings s →
    reachable settings (snd (dispatch w settings request s)).

Ltac unfold_m :=
  unfold cache_contains, cache_getitem, cache_setitem, try_except, read_timer,
    get_cache, set_cache, emit, raise, lift_outcome, fetch, company_name_of,
    call_next, validate_firebase_token, mbind, M_bind, mret, M_ret in *.

End Runs.

(* ===================================================================== *)
(** ** Example worlds                                                     *)
(* ===================================================================== *)

Module Examples.

Definition settings0 : Config.Settings :=
  Config.default_settings "gama-454419" "be-luma-infra".

(** User [u1] of tenant [t1], bound to [proj-42]. *)
Definition user_u1 : gmap string PyVal := {[ "company_id" := PStr "t1" ]}.
Definition tenant_t1 : gmap string PyVal := {[ "gcpProjectId" := PStr "proj-42" ]}.

(** A directory holding the given user and tenant documents. *)
Definition directory (users clients : list (string * gmap string PyVal))
    (collection : string) (document : PyVal) : FetchOutcome :=
  match document with
  | PStr k =>
      Snapshot
        ((list_to_map (if String.eqb collection "users" then users else clients)
            : gmap string (gmap string PyVal)) !! k)
  | _ => FetchFailed "ValueError" "Path must be a string"
  end.

(** Tokens [tok-u1], valid until 2000, and [tok-old], valid until 1500. *)
Definition token_u1 : DecodedToken :=
  mkDecodedToken "u1" (Some "a@tenant.co") (Some true) (Some 2000%Z) (Some 1000%Z).

Definition token_old : DecodedToken :=
  mkDecodedToken "u1" (Some "a@tenant.co") (Some true) (Some 1500%Z) (Some 1000%Z).

Definition verifier (token : string) : VerifyOutcome :=
  if String.eqb token "tok-u1" then Verified token_u1
  else if String.eqb token "tok-old" then Verified token_old
  else InvalidIdTokenError.

(** The timer advances by one second per reading; the wall clock reads
    1500.5; downstream answers 200. *)
Definition world_of (verify : string → VerifyOutcome)
    (fs : string → PyVal → FetchOutcome) : World :=
  {| verify_id_token := verify;
     firestore_get := fs;
     monotonic := λ n, inject_Z (Z.of_nat n);
     time_time := (3001 # 2)%Q;
     downstream := λ _ _, Return (mkResponse 200 "ok") |}.

Definition world1 : World :=
  world_of verifier (directory [("u1", user_u1)] [("t1", tenant_t1)]).

(** Directories on each rung of the ladder. *)
Definition world_no_user : World := world_of verifier (directory [] []).
Definition world_no_link : World := world_of verifier (directory [("u1", ∅)] []).
Definition world_no_tenant : World := world_of verifier (directory [("u1", user_u1)] []).
Definition world_no_project : World :=
  world_of verifier (directory [("u1", user_u1)] [("t1", ∅)]).

(** Tenant [t1] with [onboardingData: null]. *)
Definition world_null_onboarding : World :=
  world_of verifier
    (directory [("u1", user_u1)] [("t1", <["onboardingData" := PNone]> tenant_t1)]).

(** Collaborators that fail. *)
Definition world_verifier_down : World :=
  world_of (λ _, VerifyFailed "CertificateFetchError" "connection reset")
    (directory [("u1", user_u1)] [("t1", tenant_t1)]).

Definition world_users_down : World :=
  world_of verifier (λ _ _, FetchFailed "ServiceUnavailable" "503 backend unavailable").

Definition world_clients_down : World :=
  world_of verifier
    (λ collection document,
       if String.eqb collection "users"
       then directory [("u1", user_u1)] [] collection document
       else FetchFailed "DeadlineExceeded" "504 deadline exceeded").

(** Settings with other values of the cache TTL and of the admin domains. *)
Definition settings_ttl60 : Config.Settings :=
  {| Config.gcp_project_id := "gama-454419";
     Config.firebase_project_id := "be-luma-infra";
     Config.accessible_projects := [];
     Config.super_admin_domains := ["be-luma.com"];
     Config.cache_ttl := 60 |}.

Definition settings_blank_domain : Config.Settings :=
  {| Config.gcp_project_id := "gama-454419";
     Config.firebase_project_id := "be-luma-infra";
     Config.accessible_projects := ["proj-a"; "proj-b"];
     Config.super_admin_domains := ["be-luma.com"; ""];
     Config.cache_ttl := 300 |}.

(** The identities the resolver builds for [u1] and for an administrator. *)
Definition identity_u1 : UserInfo :=
  Runs.tenant_identity "u1" (Some "a@tenant.co") user_u1 tenant_t1 ∅.

Definition identity_admin : UserInfo :=
  Runs.super_admin_identity settings_blank_domain "a1" "ops@be-luma.com".

(** The state after [u1] has been resolved with its tenant email, at import
    plus two timer readings. *)
Definition state_after_u1 : State :=
  snd (get_user_info world1 settings0 "u1" (Some "a@tenant.co") (module_init settings0)).

End Examples.

(* ===================================================================== *)
(** ** Facts about the string operations                                  *)
(* ===================================================================== *)

Section StringFacts.

Lemma Qltb_lt (a b : Q) : Qltb a b = true ↔ (a < b)%Q.
Proof.
  unfold Qltb. rewrite negb_true_iff. split.
  - intros H. apply Qnot_le_lt. intros Hle.
    apply Qle_bool_iff in Hle. congruence.
  - intros H. destruct (Qle_bool b a) eqn:E; [|reflexivity].
    apply Qle_bool_iff in E. exfalso. exact (Qlt_not_le _ _ H E).
Qed.

(** [int(now)] is at least every integer that [now] has reached. *)
Lemma py_int_ge (z : Z) (x : Q) : (inject_Z z <= x)%Q → (z <= py_int x)%Z.
Proof.
  intros H. unfold py_int. destruct (Qle_bool 0 x).
  - rewrite <- (Qfloor_Z z). apply Qfloor_resp_le. exact H.
  - rewrite Zle_Qle. eapply Qle_trans; [exact H | apply Qle_ceiling].
Qed.

Lemma str_split_nonempty (c : ascii) (s : string) : str_split c s ≠ [].
Proof.
  destruct s as [|a r]; simpl; [discriminate|].
  destruct (Ascii.eqb a c); [discriminate|].
  destruct (str_split c r); discriminate.
Qed.

(** Without the separator there is nothing to split. *)
Lemma str_split_absent (c : ascii) (s : string) :
  str_contains c s = false → str_split c s = [s].
Proof.
  induction s as [|a r IH]; simpl; [reflexivity|].
  intros H. apply orb_false_iff in H as [Ha Hr].
  rewrite Ha, (IH Hr). reflexivity.
Qed.

Lemma str_contains_app (c : ascii) (pre dom : string) :
  str_contains c (pre +:+ String c dom) = true.
Proof.
  induction pre as [|b r IH]; simpl.
  - rewrite Ascii.eqb_refl. reflexivity.
  - rewrite IH. apply orb_true_r.
Qed.

(** A separator makes at least two pieces. *)
Lemma str_split_length (c : ascii) (s : string) :
  str_contains c s = true → (2 <= length (str_split c s))%nat.
Proof.
  induction s as [|b s IH]; simpl; [discriminate|].
  intros H. pose proof (str_split_nonempty c s) as Hne.
  destruct (Ascii.eqb b c) eqn:Eb.
  - destruct (str_split c s); [congruence|simpl; lia].
  - simpl in H. specialize (IH H).
    destruct (str_split c s) as [|? ?]; simpl in *; lia.
Qed.

(** The last piece of [pre @ dom] is [dom] when [dom] has no separator:
    the substring after the last separator. *)
Lemma last_str_split_app (c : ascii) (pre dom : string) :
  str_contains c dom = false →
  last (str_split c (pre +:+ String c dom)) = Some dom.
Proof.
  intros Hdom. induction pre as [|a r IH]; simpl.
  - rewrite Ascii.eqb_refl, (str_split_absent _ _ Hdom). reflexivity.
  - pose proof (str_split_length c _ (str_contains_app c r dom)) as Hlen.
    destruct (str_split c (r +:+ String c dom)) as [|h [|h' t]] eqn:E;
      simpl in Hlen; try lia.
    destruct (Ascii.eqb a c); exact IH.
Qed.

(** [email_domain] is the substring after the last [@]. *)
Lemma email_domain_after_last_at (pre dom : string) :
  str_contains "@" dom = false →
  email_domain (pre +:+ String "@" dom) = dom.
Proof.
  intros H. unfold email_domain.
  rewrite str_contains_app, (last_str_split_app _ _ _ H). reflexivity.
Qed.

Lemma email_domain_no_at (e : string) :
  str_contains "@" e = false → email_domain e = "".
Proof. intros H. unfold email_domain. rewrite H. reflexivity. Qed.

Lemma str_in_list_spec (s : string) (l : list PyVal) :
  str_in_list s l = true ↔ PStr s ∈ l.
Proof.
  unfold str_in_list. rewrite existsb_exists. split.
  - intros (v & Hin & Hv). destruct v; simpl in Hv; try discriminate.
    apply String.eqb_eq in Hv. subst. apply list_elem_of_In. exact Hin.
  - intros Hin. exists (PStr s). split.
    + apply list_elem_of_In. exact Hin.
    + simpl. apply String.eqb_refl.
Qed.

End StringFacts.

(* ===================================================================== *)
(** ** Facts about the cache                                              *)
(* ===================================================================== *)

Module TTLCacheFacts.
Import TTLCache.
Section Facts.
Context {V : Type}.
Implicit Types (c : t V) (ls : list (Link V)) (k : string) (v : V).

Lemma find_key k ls l : find k ls = Some l → link_key l = k.
Proof.
  induction ls as [|x r IH]; simpl; [discriminate|].
  destruct (String.eqb (link_key x) k) eqn:E.
  - intros [= <-]. apply String.eqb_eq. exact E.
  - exact IH.
Qed.

Lemma find_app k ls ls' :
  find k (ls ++ ls') =
    match find k ls with Some l => Some l | None => find k ls' end.
Proof.
  induction ls as [|x r IH]; simpl; [reflexivity|].
  destruct (String.eqb (link_key x) k); [reflexivity|exact IH].
Qed.

Lemma find_remove k ls : find k (remove k ls) = None.
Proof.
  unfold remove. induction ls as [|x r IH]; [reflexivity|].
  rewrite filter_cons. destruct (decide (link_key x ≠ k)) as [Hne|Heq].
  - simpl. apply String.eqb_neq in Hne. rewrite Hne. exact IH.
  - exact IH.
Qed.

Lemma find_drop_None k n ls : find k ls = None → find k (drop n ls) = None.
Proof.
  revert n. induction ls as [|x r IH]; intros [|n]; simpl; try done.
  destruct (String.eqb (link_key x) k); [discriminate|]. apply IH.
Qed.

(** What [setitem] leaves under the key it wrote. *)
Lemma setitem_find c now k v c' :
  setitem c now k v = Some c' →
  find k (links c') = Some (mkLink k v (now + ttl c)%Q)
  ∧ maxsize c' = maxsize c ∧ ttl c' = ttl c.
Proof.
  unfold setitem. destruct (maxsize c <? 1)%nat; [discriminate|].
  intros [= <-]. simpl. split; [|done].
  rewrite find_app.
  assert (Hkept :
    find k (match find k (List.filter (live now) (links c)) with
            | Some _ => remove k (List.filter (live now) (links c))
            | None => drop (length (List.filter (live now) (links c)) + 1 - maxsize c)
                        (List.filter (live now) (links c))
            end) = None).
  { destruct (find k (List.filter (live now) (links c))) eqn:E.
    - apply find_remove.
    - apply find_drop_None. exact E. }
  rewrite Hkept. simpl. rewrite String.eqb_refl. reflexivity.
Qed.

Lemma setitem_is_Some c now k v :
  (1 <= maxsize c)%nat → is_Some (setitem c now k v).
Proof.
  intros H. unfold setitem.
  destruct (Nat.ltb_spec (maxsize c) 1); [lia|]. eauto.
Qed.

(** A stored item is found, unchanged, at every reading before its
    expiry. *)
Lemma getitem_live c now k l :
  find k (links c) = Some l → (now < link_expires l)%Q →
  contains c now k = true
  ∧ fst (getitem c now k) = Some (link_value l)
  ∧ find k (links (snd (getitem c now k))) = Some l
  ∧ maxsize (snd (getitem c now k)) = maxsize c
  ∧ ttl (snd (getitem c now k)) = ttl c.
Proof.
  intros Hf Hlt. apply Qltb_lt in Hlt.
  unfold contains, getitem, live. rewrite Hf, Hlt. simpl.
  repeat split. rewrite find_app, find_remove. simpl.
  rewrite (find_key _ _ _ Hf), String.eqb_refl. reflexivity.
Qed.

Lemma getitem_params c now k :
  maxsize (snd (getitem c now k)) = maxsize c
  ∧ ttl (snd (getitem c now k)) = ttl c.
Proof.
  unfold getitem. destruct (find k (links c)) as [l|]; [|done].
  destruct (live now l); done.
Qed.

End Facts.
End TTLCacheFacts.

(* ===================================================================== *)
(** ** Running the resolver                                               *)
(* ===================================================================== *)

Module Resolver.
Import TTLCache TTLCacheFacts Runs.

Lemma get_user_info_handler_run (e : Exception) (s : State) :
  get_user_info_handler e s = (Raise (get_user_info_except e), s).
Proof.
  unfold get_user_info_handler, get_user_info_except, raise.
  destruct (_ || _); reflexivity.
Qed.

Section Steps.
Variable w : World.
Variable settings : Config.Settings.

Lemma module_init_configured : configured (module_init settings).
Proof. split; reflexivity. Qed.

Lemma get_user_info_hit_run uid email s :
  contains (user_cache s) (next_reading w s) (cache_key_of uid) = true →
  get_user_info w settings uid email s = cache_getitem w (cache_key_of uid) (tick s).
Proof.
  intros H. unfold get_user_info. unfold_m. simpl.
  unfold next_reading in H. rewrite H. reflexivity.
Qed.

Lemma get_user_info_miss_run uid email s :
  cache_miss w s uid →
  get_user_info w settings uid email s =
    try_except
      (user_info ← build_user_info w settings uid email;
       _ ← cache_setitem w (cache_key_of uid) user_info;
       mret user_info)
      get_user_info_handler (tick s).
Proof.
  intros H. unfold get_user_info. unfold cache_miss, next_reading in H.
  unfold cache_contains, read_timer, get_cache, mbind, M_bind, mret, M_ret.
  simpl. rewrite H. reflexivity.
Qed.

(** Storing succeeds in a configured state. *)
Lemma cache_setitem_run k v s :
  configured s →
  ∃ c', setitem (user_cache s) (next_reading w s) k v = Some c'
        ∧ cache_setitem w k v s = (Return (), with_cache c' (tick s))
        ∧ find k (links c') = Some (mkLink k v (next_reading w s + 300)%Q)
        ∧ maxsize c' = 1000%nat ∧ ttl c' = 300%Q.
Proof.
  intros [Hm Ht].
  destruct (setitem_is_Some (user_cache s) (next_reading w s) k v) as [c' Hc'];
    [lia|].
  exists c'. destruct (setitem_find _ _ _ _ _ Hc') as (Hf & Hm' & Ht').
  rewrite Ht in Hf. repeat split; try congruence.
  unfold_m. simpl. unfold next_reading in Hc'. rewrite Hc'. reflexivity.
Qed.


End Steps.

Section Building.
Variable w : World.
Variable settings : Config.Settings.

Lemma build_super_admin uid e s :
  super_admin_test settings (Some e) = true →
  build_user_info w settings uid (Some e) s = (Return (super_admin_identity settings uid e), s).
Proof.
  intros H. unfold build_user_info. rewrite H. unfold_m.
  unfold UserInfo_init, super_admin_identity. simpl.
  destruct (Config.accessible_projects settings); reflexivity.
Qed.

(** [build_user_info] reads no timer and leaves the cache alone; all it adds
    to the trace is at most one fetch of the user and one of the tenant. *)
Lemma build_user_info_frame uid email s :
  ∃ evs,
    snd (build_user_info w settings uid email s)
      = mkState (user_cache s) (timer_reads s) (trace s ++ evs)
    ∧ (evs = []
       ∨ evs = [EvFetch "users" (PStr uid)]
       ∨ ∃ cid, evs = [EvFetch "users" (PStr uid); EvFetch "clients" cid])
    ∧ (super_admin_test settings email = true → evs = []).
Proof.
  unfold build_user_info.
  destruct (super_admin_test settings email) eqn:Hsa.
  - exists []. unfold_m. simpl. rewrite app_nil_r. destruct s; auto.
  - unfold_m. simpl.
    destruct (firestore_get w "users" (PStr uid)) as [k m|[ud|]]; simpl;
      try (exists [EvFetch "users" (PStr uid)]; repeat split; auto; discriminate).
    destruct (truthy (dict_get ud "company_id")); simpl;
      try (exists [EvFetch "users" (PStr uid)]; repeat split; auto; discriminate).
    set (cid := dict_get ud "company_id").
    exists [EvFetch "users" (PStr uid); EvFetch "clients" cid].
    split; [|split; [eauto|discriminate]].
    destruct (firestore_get w "clients" cid) as [k m|[cd|]]; simpl;
      try (rewrite <- app_assoc; reflexivity).
    destruct (truthy (dict_get cd "gcpProjectId")); simpl;
      try (rewrite <- app_assoc; reflexivity).
    destruct (dict_get_default cd "onboardingData" (PDict ∅)); simpl;
      rewrite <- app_assoc; reflexivity.
Qed.

(** Whatever [build_user_info] returns without passing the super-admin test
    is not a super admin. *)
Lemma build_user_info_not_admin uid email s ui s' :
  super_admin_test settings email = false →
  build_user_info w settings uid email s = (Return ui, s') →
  is_super_admin ui = false.
Proof.
  intros Hsa. unfold build_user_info. rewrite Hsa. unfold_m. simpl.
  destruct (firestore_get w "users" (PStr uid)) as [k m|[ud|]]; simpl; try discriminate.
  destruct (truthy (dict_get ud "company_id")); simpl; try discriminate.
  destruct (firestore_get w "clients" _) as [k m|[cd|]]; simpl; try discriminate.
  destruct (truthy (dict_get cd "gcpProjectId")); simpl; try discriminate.
  destruct (dict_get_default cd "onboardingData" (PDict ∅)); simpl; try discriminate.
  intros [= <- _]. reflexivity.
Qed.

(** A miss that builds an identity stores it, to expire 300 seconds after
    the reading taken by the store, and returns it. *)
Lemma get_user_info_miss_built uid email s ui s1 :
  configured s → cache_miss w s uid →
  build_user_info w settings uid email (tick s) = (Return ui, s1) →
  ∃ c', get_user_info w settings uid email s = (Return ui, with_cache c' (tick s1))
        ∧ find (cache_key_of uid) (links c')
            = Some (mkLink (cache_key_of uid) ui (monotonic w (S (timer_reads s)) + 300)%Q)
        ∧ maxsize c' = 1000%nat ∧ ttl c' = 300%Q.
Proof.
  intros Hc Hmiss Hb.
  destruct (build_user_info_frame uid email (tick s)) as (evs & Hs1 & _).
  rewrite Hb in Hs1. simpl in Hs1.
  assert (Hc1 : configured s1) by (subst s1; exact Hc).
  destruct (cache_setitem_run w (cache_key_of uid) ui s1 Hc1)
    as (c' & _ & Hrun & Hf & Hm & Ht).
  exists c'. split; [|split; [|done]].
  - rewrite (get_user_info_miss_run _ _ _ _ _ Hmiss).
    unfold try_except, mbind, M_bind. rewrite Hb, Hrun. reflexivity.
  - rewrite Hf. unfold next_reading. subst s1. reflexivity.
Qed.

(** A miss that fails to build raises through the [except] clauses and
    stores nothing. *)
Lemma get_user_info_miss_failed uid email s e s1 :
  cache_miss w s uid →
  build_user_info w settings uid email (tick s) = (Raise e, s1) →
  get_user_info w settings uid email s = get_user_info_handler e s1.
Proof.
  intros Hmiss Hb. rewrite (get_user_info_miss_run _ _ _ _ _ Hmiss).
  unfold try_except, mbind, M_bind. rewrite Hb. reflexivity.
Qed.

End Building.

Section Hits.
Variable settings : Config.Settings.

(** A hit: both timer readings of the call fall before the entry's expiry.
    The cached value is returned whatever the email is; no collaborator is
    called, and the entry stays. *)
Lemma get_user_info_hit (w : World) uid email s l :
  cached s uid = Some l →
  (next_reading w s < link_expires l)%Q →
  (monotonic w (S (timer_reads s)) < link_expires l)%Q →
  ∃ c', get_user_info w settings uid email s
          = (Return (link_value l), with_cache c' (tick (tick s)))
        ∧ find (cache_key_of uid) (links c') = Some l
        ∧ maxsize c' = maxsize (user_cache s) ∧ ttl c' = ttl (user_cache s).
Proof.
  intros Hf H1 H2. unfold cached in Hf.
  destruct (getitem_live (user_cache s) _ _ _ Hf H1) as (Hc & _).
  destruct (getitem_live (user_cache s) _ _ _ Hf H2) as (_ & Hv & Hf' & Hm & Ht).
  exists (snd (getitem (user_cache s) (monotonic w (S (timer_reads s))) (cache_key_of uid))).
  split; [|done].
  rewrite (get_user_info_hit_run w settings uid email s Hc).
  unfold_m. simpl.
  destruct (getitem (user_cache s) (monotonic w (S (timer_reads s))) (cache_key_of uid))
    as [r c'] eqn:E.
  simpl in Hv. subst r. reflexivity.
Qed.

(** What a call that returns leaves in the cache, and what it fetched. *)
Lemma get_user_info_returns (w : World) uid email s ui s1 :
  configured s →
  get_user_info w settings uid email s = (Return ui, s1) →
  ∃ l, cached s1 uid = Some l ∧ link_value l = ui
       ∧ configured s1
       ∧ (cache_miss w s uid →
            link_expires l = (monotonic w (S (timer_reads s)) + 300)%Q
            ∧ ∃ s0, build_user_info w settings uid email (tick s) = (Return ui, s0))
       ∧ ∃ evs, trace s1 = trace s ++ evs ∧ (directory_resolutions evs <= 1)%nat.
Proof.
  intros Hc Hrun.
  destruct (contains (user_cache s) (next_reading w s) (cache_key_of uid)) eqn:Hhit.
  - (* hit *)
    rewrite (get_user_info_hit_run w settings uid email s Hhit) in Hrun.
    unfold_m. simpl in Hrun.
    unfold getitem in Hrun.
    destruct (find (cache_key_of uid) (links (user_cache s))) as [l|] eqn:Hf;
      [|discriminate].
    destruct (live (monotonic w (S (timer_reads s))) l); [|discriminate].
    injection Hrun as <- <-. exists l. unfold cached. simpl.
    split; [|split; [reflexivity|split; [exact Hc|split]]].
    + rewrite find_app, find_remove. simpl.
      rewrite (find_key _ _ _ Hf), String.eqb_refl. reflexivity.
    + unfold cache_miss. congruence.
    + exists []. rewrite app_nil_r. split; [reflexivity|].
      unfold directory_resolutions. simpl. lia.
  - (* miss *)
    destruct (build_user_info w settings uid email (tick s)) as [[ui1|ex] s0] eqn:Hb.
    + destruct (get_user_info_miss_built w settings uid email s _ _ Hc Hhit Hb)
        as (c' & Hrun' & Hf & Hm & Ht).
      rewrite Hrun in Hrun'. injection Hrun' as -> ->.
      eexists. unfold cached. simpl. split; [exact Hf|].
      split; [reflexivity|]. split; [split; assumption|]. split; [eauto|].
      destruct (build_user_info_frame w settings uid email (tick s)) as (evs & Hs0 & Hev & _).
      rewrite Hb in Hs0. simpl in Hs0. subst s0. simpl. exists evs.
      split; [reflexivity|].
      destruct Hev as [->|[->|[cid ->]]]; unfold directory_resolutions; simpl; lia.
    + rewrite (get_user_info_miss_failed w settings uid email s _ _ Hhit Hb) in Hrun.
      unfold get_user_info_handler, raise in Hrun.
      destruct (_ || _) in Hrun; discriminate.
Qed.

End Hits.

(** What [build_user_info] puts in the identity it returns. *)
Lemma build_user_info_fields w settings uid email s ui s' :
  build_user_info w settings uid email s = (Return ui, s') →
  Auth.uid ui = uid ∧ Auth.email ui = email
  ∧ is_super_admin ui = super_admin_test settings email.
Proof.
  unfold build_user_info.
  destruct (super_admin_test settings email) eqn:Hsa.
  - unfold_m. intros [= <- _]. auto.
  - unfold_m. simpl.
    destruct (firestore_get w "users" (PStr uid)) as [k m|[ud|]]; simpl; try discriminate.
    destruct (truthy (dict_get ud "company_id")); simpl; try discriminate.
    destruct (firestore_get w "clients" _) as [k m|[cd|]]; simpl; try discriminate.
    destruct (truthy (dict_get cd "gcpProjectId")); simpl; try discriminate.
    destruct (dict_get_default cd "onboardingData" (PDict ∅)); simpl; try discriminate.
    intros [= <- _]. auto.
Qed.

Lemma get_user_info_configured w settings uid email s :
  configured s → configured (snd (get_user_info w settings uid email s)).
Proof.
  intros Hc.
  destruct (contains (user_cache s) (next_reading w s) (cache_key_of uid)) eqn:Hhit.
  - rewrite (get_user_info_hit_run w settings uid email s Hhit).
    unfold_m. simpl.
    pose proof (getitem_params (user_cache s) (monotonic w (S (timer_reads s)))
                  (cache_key_of uid)) as [Hm Ht].
    unfold configured in *.
    destruct (getitem _ _ _) as [[v|] c']; simpl in *;
      destruct Hc; split; congruence.
  - destruct (build_user_info w settings uid email (tick s)) as [[ui|e] s0] eqn:Hb.
    + destruct (get_user_info_miss_built w settings uid email s _ _ Hc Hhit Hb)
        as (c' & Hrun & _ & Hm & Ht).
      rewrite Hrun. split; assumption.
    + rewrite (get_user_info_miss_failed w settings uid email s _ _ Hhit Hb).
      rewrite get_user_info_handler_run. simpl.
      destruct (build_user_info_frame w settings uid email (tick s)) as (evs & Hs0 & _).
      rewrite Hb in Hs0. simpl in Hs0. subst s0. exact Hc.
Qed.

End Resolver.

(* ===================================================================== *)
(** ** Running the gateway                                                *)
(* ===================================================================== *)

Module Gateway.
Import TTLCache TTLCacheFacts Runs Resolver.

Section Gateway.
Variable w : World.
Variable settings : Config.Settings.

Lemma dispatch_handler_run e s :
  dispatch_handler e s = (Raise (dispatch_except e), s).
Proof.
  unfold dispatch_handler, dispatch_except, raise.
  destruct (_ || _); reflexivity.
Qed.

Lemma prefix_nil (s : string) : String.prefix "" s = true.
Proof. destruct s; reflexivity. Qed.

(** With ["/"] on the allow-list and matching by prefix, every path that
    begins with a slash is public. *)
Lemma rooted_path_is_public (rest : string) :
  is_public_path (String "/" rest) = true.
Proof.
  unfold is_public_path. apply existsb_exists. exists "/".
  split; [unfold public_paths; simpl; tauto|].
  unfold startswith. simpl. apply prefix_nil.
Qed.

Lemma dispatch_bearer_run request token s :
  is_public_path (url_path request) = false →
  authorization request = Some ("Bearer " +:+ token) →
  token ≠ "" →
  dispatch w settings request s =
    try_except
      (firebase_user ← validate_firebase_token w token;
       authenticated w settings request firebase_user)
      dispatch_handler s.
Proof.
  intros Hpub Hauth Htok. unfold dispatch. rewrite Hpub, Hauth.
  apply String.eqb_neq in Htok.
  unfold startswith. simpl. rewrite prefix_nil. simpl.
  change ("" +:+ token) with token. rewrite Htok. reflexivity.
Qed.

(** A verified, unexpired token: the rest of [dispatch] is the resolution
    and the call downstream, each failure passing the [except] clauses. *)
Lemma dispatch_verified_run request token decoded exp s :
  is_public_path (url_path request) = false →
  authorization request = Some ("Bearer " +:+ token) →
  token ≠ "" →
  verify_id_token w token = Verified decoded →
  tok_exp decoded = Some exp → (py_int (time_time w) < exp)%Z →
  dispatch w settings request s =
    match get_user_info w settings (tok_uid decoded) (tok_email decoded)
            (logged (EvVerify token) s) with
    | (Return ui, s1) =>
        match downstream w request (Some ui) with
        | Return r => (Return r, logged (EvCallNext (Some ui)) s1)
        | Raise e => (Raise (dispatch_except e), logged (EvCallNext (Some ui)) s1)
        end
    | (Raise e, s1) => (Raise (dispatch_except e), s1)
    end.
Proof.
  intros Hpub Hauth Htok Hver Hexp Hlt.
  rewrite (dispatch_bearer_run request token s Hpub Hauth Htok).
  unfold authenticated, validate_firebase_token, try_except.
  unfold mbind at 1. unfold M_bind at 1. unfold mbind at 1. unfold M_bind at 1.
  unfold emit at 1. rewrite Hver. unfold mret, M_ret. simpl. rewrite Hexp.
  apply Z.leb_gt in Hlt. rewrite Hlt.
  unfold mbind, M_bind. fold (logged (EvVerify token) s).
  destruct (get_user_info w settings (tok_uid decoded) (tok_email decoded)
              (logged (EvVerify token) s)) as [[ui|e] s1].
  - unfold call_next, emit, lift_outcome, mbind, M_bind. simpl.
    fold (logged (EvCallNext (Some ui)) s1).
    destruct (downstream w request (Some ui)); [reflexivity|].
    apply dispatch_handler_run.
  - apply dispatch_handler_run.
Qed.

End Gateway.

Lemma dispatch_configured w settings request s :
  configured s → configured (snd (dispatch w settings request s)).
Proof.
  intros Hc. unfold dispatch.
  destruct (is_public_path (url_path request)).
  { unfold_m. simpl. destruct (downstream w request None); exact Hc. }
  assert (Hraise : ∀ e s', configured s' →
            configured (snd (try_except (raise e) dispatch_handler s'))).
  { intros e s' Hs'. unfold try_except, raise.
    rewrite dispatch_handler_run. exact Hs'. }
  destruct (authorization request) as [h|]; [|apply Hraise, Hc].
  destruct (String.eqb h "" || negb (startswith h "Bearer ")); [apply Hraise, Hc|].
  destruct (String.eqb (str_drop 7 h) ""); [apply Hraise, Hc|].
  unfold try_except, validate_firebase_token, authenticated.
  unfold mbind at 1. unfold M_bind at 1. unfold mbind at 1. unfold M_bind at 1.
  unfold emit at 1.
  destruct (verify_id_token w (str_drop 7 h)) as [d| | | |k m];
    try (unfold raise; rewrite dispatch_handler_run; exact Hc).
  unfold mret, M_ret. simpl.
  destruct (tok_exp d) as [exp|];
    [|unfold raise; rewrite dispatch_handler_run; exact Hc].
  destruct (exp <=? py_int (time_time w))%Z;
    [unfold raise; rewrite dispatch_handler_run; exact Hc|].
  unfold mbind, M_bind.
  pose proof (get_user_info_configured w settings (tok_uid d) (tok_email d)
                (logged (EvVerify (str_drop 7 h)) s) Hc) as Hg.
  unfold logged in Hg. simpl in Hg.
  destruct (get_user_info w settings (tok_uid d) (tok_email d) _) as [[ui|e] s1];
    simpl in Hg.
  - unfold_m. simpl. destruct (downstream w request (Some ui)); [exact Hg|].
    rewrite dispatch_handler_run. exact Hg.
  - rewrite dispatch_handler_run. exact Hg.
Qed.

(** The cache keeps the parameters it was created with. *)
Lemma reachable_configured settings s : reachable settings s → configured s.
Proof.
  induction 1 as [|w uid email s _ IH|w request s _ IH].
  - apply module_init_configured.
  - apply get_user_info_configured. exact IH.
  - apply dispatch_configured. exact IH.
Qed.

End Gateway.

(* ===================================================================== *)
(** ** The claims                                                         *)
(* ===================================================================== *)

Module Claims.
Import TTLCache TTLCacheFacts Runs Resolver Gateway Examples.

(** The header checks of the gateway, on the paths its prefix test does not
    take for public: a request whose Authorization header is absent, does
    not start with [Bearer ], or carries an empty token is rejected with
    [MissingTokenError], and nothing is verified, fetched, cached or passed
    downstream. A request whose path passes the prefix test goes downstream
    at once, with no identity attached. *)
Lemma missing_token_gate
    (w : World) (settings : Config.Settings) (request : Request) (s : State) :
  (is_public_path (url_path request) = false →
   (authorization request = None
    ∨ (∃ h, authorization request = Some h ∧ startswith h "Bearer " = false)
    ∨ authorization request = Some "Bearer ") →
   dispatch w settings request s = (Raise (HTTPExc new_MissingTokenError), s))
  ∧ (is_public_path (url_path request) = true →
     dispatch w settings request s
       = (downstream w request None, logged (EvCallNext None) s)).
Proof.
  split.
  - intros Hpub Hhdr. unfold dispatch. rewrite Hpub.
    destruct Hhdr as [Hnone|[(h & Hsome & Hpre)|Hempty]].
    + rewrite Hnone. reflexivity.
    + rewrite Hsome. unfold try_except. rewrite Hpre, orb_true_r. reflexivity.
    + rewrite Hempty. reflexivity.
  - intros Hpub. unfold dispatch. rewrite Hpub. reflexivity.
Qed.

(** C1. The gate does not hold for the paths of the application: every
    path that begins with a slash starts with the allow-list entry ["/"],
    so a request for it goes downstream with no identity attached, whatever
    its Authorization header, and no [MissingTokenError] is raised. *)
Theorem gate_skipped_on_rooted_paths
    (w : World) (settings : Config.Settings) (rest : string)
    (header : option string) (s : State) :
  dispatch w settings (mkRequest (String "/" rest) header) s
    = (downstream w (mkRequest (String "/" rest) header) None,
       logged (EvCallNext None) s).
Proof.
  apply (proj2 (missing_token_gate w settings _ s)).
  apply rooted_path_is_public.
Qed.

(** A query without a token reaches the application. *)
Example unauthenticated_query_forwarded :
  dispatch world1 settings0 (mkRequest "/api/bigquery/query" None) (module_init settings0)
    = (Return (mkResponse 200 "ok"), logged (EvCallNext None) (module_init settings0)).
Proof.
  apply (proj2 (missing_token_gate world1 settings0
                  (mkRequest "/api/bigquery/query" None) (module_init settings0))).
  reflexivity.
Qed.

(** C2 (amended). An unexpected failure of the verifier or of a Tenant
    Directory fetch reaches the client as a plain [AuthenticationError]:
    status 401, code [AUTH_ERROR], the failure's message in the detail. Its
    status is that of [UserNotFoundError]; it differs from it, and from
    [InvalidTokenError], by its class, code and detail. *)
Theorem infrastructure_failure_is_auth_error
    (w : World) (settings : Config.Settings) (request : Request)
    (token : string) (s : State) :
  is_public_path (url_path request) = false →
  authorization request = Some ("Bearer " +:+ token) →
  token ≠ "" →
  (∀ kind msg,
     verify_id_token w token = VerifyFailed kind msg →
     dispatch w settings request s
       = (Raise (HTTPExc (new_AuthenticationError ("Token validation failed: " +:+ msg))),
          logged (EvVerify token) s))
  ∧ (∀ decoded exp,
       verify_id_token w token = Verified decoded →
       tok_exp decoded = Some exp → (py_int (time_time w) < exp)%Z →
       cache_miss w (logged (EvVerify token) s) (tok_uid decoded) →
       super_admin_test settings (tok_email decoded) = false →
       let fetched_user :=
         logged (EvFetch "users" (PStr (tok_uid decoded)))
           (tick (logged (EvVerify token) s)) in
       (∀ kind msg,
          firestore_get w "users" (PStr (tok_uid decoded)) = FetchFailed kind msg →
          dispatch w settings request s
            = (Raise (HTTPExc (new_AuthenticationError
                                 ("Failed to get user information: " +:+ msg))),
               fetched_user))
       ∧ (∀ user_data kind msg,
            firestore_get w "users" (PStr (tok_uid decoded)) = Snapshot (Some user_data) →
            truthy (dict_get user_data "company_id") = true →
            firestore_get w "clients" (dict_get user_data "company_id")
              = FetchFailed kind msg →
            dispatch w settings request s
              = (Raise (HTTPExc (new_AuthenticationError
                                   ("Failed to get user information: " +:+ msg))),
                 logged (EvFetch "clients" (dict_get user_data "company_id"))
                   fetched_user)))
  ∧ (∀ dtl,
       new_AuthenticationError dtl = mkHTTPException AuthenticationError 401 dtl "AUTH_ERROR"
       ∧ status_code (new_AuthenticationError dtl) = status_code new_UserNotFoundError
       ∧ isinstance (HTTPExc (new_AuthenticationError dtl)) UserNotFoundError = false
       ∧ isinstance (HTTPExc (new_AuthenticationError dtl)) InvalidTokenError = false
       ∧ code (new_AuthenticationError dtl) ≠ code new_UserNotFoundError
       ∧ code (new_AuthenticationError dtl) ≠ code new_InvalidTokenError).
Proof.
  intros Hpub Hauth Htok.
  pose proof (dispatch_bearer_run w settings request token s Hpub Hauth Htok) as Hrun.
  split; [|split].
  - intros kind msg Hver. rewrite Hrun.
    unfold_m. simpl. rewrite Hver. reflexivity.
  - intros decoded exp Hver Hexp Hlt Hmiss Hsa fetched_user.
    pose proof (dispatch_verified_run w settings request token decoded exp s
                  Hpub Hauth Htok Hver Hexp Hlt) as Hd.
    split.
    + intros kind msg Hu. rewrite Hd.
      rewrite (get_user_info_miss_failed w settings _ _ _ (PyExc kind msg)
                 fetched_user Hmiss).
      * rewrite get_user_info_handler_run. reflexivity.
      * unfold build_user_info. rewrite Hsa. unfold_m. simpl. rewrite Hu. reflexivity.
    + intros ud kind msg Hu Hcid Hc. rewrite Hd.
      rewrite (get_user_info_miss_failed w settings _ _ _ (PyExc kind msg)
                 (logged (EvFetch "clients" (dict_get ud "company_id")) fetched_user)
                 Hmiss).
      * rewrite get_user_info_handler_run. reflexivity.
      * unfold build_user_info. rewrite Hsa. unfold_m. simpl. rewrite Hu. simpl.
        rewrite Hcid. simpl. rewrite Hc. reflexivity.
  - intros dtl. repeat split; discriminate.
Qed.

(** The three failures, each in a world where one collaborator is down. *)
Lemma infrastructure_failure_is_auth_error_witness :
  dispatch world_verifier_down settings0 (mkRequest "" (Some "Bearer tok-u1"))
      (module_init settings0)
    = (Raise (HTTPExc (new_AuthenticationError
                         "Token validation failed: connection reset")),
       logged (EvVerify "tok-u1") (module_init settings0))
  ∧ raised (fst (dispatch world_users_down settings0
                   (mkRequest "" (Some "Bearer tok-u1")) (module_init settings0)))
    = Some (HTTPExc (new_AuthenticationError
                       "Failed to get user information: 503 backend unavailable"))
  ∧ raised (fst (dispatch world_clients_down settings0
                   (mkRequest "" (Some "Bearer tok-u1")) (module_init settings0)))
    = Some (HTTPExc (new_AuthenticationError
                       "Failed to get user information: 504 deadline exceeded")).
Proof.
  split; [|split].
  - apply (proj1 (infrastructure_failure_is_auth_error world_verifier_down settings0
                    (mkRequest "" (Some "Bearer tok-u1")) "tok-u1" (module_init settings0)
                    eq_refl eq_refl ltac:(discriminate))
             "CertificateFetchError" "connection reset").
    reflexivity.
  - destruct (proj1 (proj2 (infrastructure_failure_is_auth_error world_users_down settings0
                      (mkRequest "" (Some "Bearer tok-u1")) "tok-u1" (module_init settings0)
                      eq_refl eq_refl ltac:(discriminate)))
                token_u1 2000%Z eq_refl eq_refl eq_refl eq_refl eq_refl) as [Hu _].
    rewrite (Hu "ServiceUnavailable" "503 backend unavailable" eq_refl). reflexivity.
  - destruct (proj1 (proj2 (infrastructure_failure_is_auth_error world_clients_down settings0
                      (mkRequest "" (Some "Bearer tok-u1")) "tok-u1" (module_init settings0)
                      eq_refl eq_refl ltac:(discriminate)))
                token_u1 2000%Z eq_refl eq_refl eq_refl eq_refl eq_refl) as [_ Hc].
    rewrite (Hc user_u1 "DeadlineExceeded" "504 deadline exceeded"
               eq_refl eq_refl eq_refl).
    reflexivity.
Defined.

(** Against C2 as stated: with the user fetch or the verifier failing, the
    client receives status 401, of the 4xx class of [UserNotFoundError], not
    a 503. *)
Lemma infrastructure_failure_not_503 :
  raised (fst (dispatch world_users_down settings0
                 (mkRequest "" (Some "Bearer tok-u1")) (module_init settings0)))
    = Some (HTTPExc (mkHTTPException AuthenticationError 401
                       "Failed to get user information: 503 backend unavailable"
                       "AUTH_ERROR"))
  ∧ raised (fst (dispatch world_verifier_down settings0
                   (mkRequest "" (Some "Bearer tok-u1")) (module_init settings0)))
    = Some (HTTPExc (mkHTTPException AuthenticationError 401
                       "Token validation failed: connection reset" "AUTH_ERROR"))
  ∧ status_class 401 ≠ 5%Z
  ∧ status_class 401 = status_class (status_code new_UserNotFoundError).
Proof.
  split; [vm_compute; reflexivity|].
  split; [vm_compute; reflexivity|].
  split; [discriminate|reflexivity].
Qed.

(** C3 (amended). On a call that finds no live cache entry for the uid, an
    email whose substring after the last [@] is a configured super-admin
    domain is resolved without any Tenant Directory lookup, to the identity
    with [is_super_admin = true], the fixed tenant id ["super-admin"],
    permissions [read, write, admin], [email_verified = True] and the
    configured admin scopes, or the default scope when none is configured;
    the identity is cached. On such a call an email without [@] is not
    resolved to a super admin, provided the empty string is not a configured
    domain. *)
Theorem super_admin_resolution_on_miss
    (w : World) (settings : Config.Settings) (uid : string) (s : State) :
  configured s → cache_miss w s uid →
  (∀ pre dom,
     str_contains "@" dom = false →
     dom ∈ Config.super_admin_domains settings →
     ∃ s', get_user_info w settings uid (Some (pre +:+ String "@" dom)) s
             = (Return (super_admin_identity settings uid (pre +:+ String "@" dom)), s')
           ∧ trace s' = trace s
           ∧ link_value <$> cached s' uid
               = Some (super_admin_identity settings uid (pre +:+ String "@" dom)))
  ∧ (∀ e ui s',
       str_contains "@" e = false →
       "" ∉ Config.super_admin_domains settings →
       get_user_info w settings uid (Some e) s = (Return ui, s') →
       is_super_admin ui = false).
Proof.
  intros Hc Hmiss. split.
  - intros pre dom Hdom Hin.
    set (e := pre +:+ String "@" dom).
    assert (Hsa : super_admin_test settings (Some e) = true).
    { unfold super_admin_test.
      destruct (String.eqb e "") eqn:He.
      - apply String.eqb_eq in He. subst e. destruct pre; discriminate.
      - subst e. rewrite (email_domain_after_last_at _ _ Hdom).
        apply bool_decide_eq_true. exact Hin. }
    destruct (get_user_info_miss_built w settings uid (Some e) s _ _ Hc Hmiss
                (build_super_admin w settings uid e (tick s) Hsa))
      as (c' & Hrun & Hf & _).
    eexists. split; [exact Hrun|]. split; [reflexivity|].
    unfold cached. simpl. rewrite Hf. reflexivity.
  - intros e ui s' He Hno Hrun.
    assert (Hsa : super_admin_test settings (Some e) = false).
    { unfold super_admin_test. destruct (String.eqb e ""); [reflexivity|].
      rewrite (email_domain_no_at _ He). apply bool_decide_eq_false. exact Hno. }
    destruct (build_user_info w settings uid (Some e) (tick s)) as [[ui1|ex] s1] eqn:Hb.
    + destruct (get_user_info_miss_built w settings uid (Some e) s _ _ Hc Hmiss Hb)
        as (c' & Hrun' & _).
      rewrite Hrun in Hrun'. injection Hrun' as -> _.
      exact (build_user_info_not_admin w settings uid (Some e) _ _ _ Hsa Hb).
    + rewrite (get_user_info_miss_failed w settings uid (Some e) s _ _ Hmiss Hb) in Hrun.
      unfold get_user_info_handler, raise in Hrun.
      destruct (_ || _) in Hrun; discriminate.
Qed.

(** An administrator resolved at import, and [u1] resolved with an email
    that has no [@]. *)
Lemma super_admin_resolution_on_miss_witness :
  returned (fst (get_user_info world1 settings_blank_domain "a1"
                   (Some "ops@be-luma.com") (module_init settings_blank_domain)))
    = Some identity_admin
  ∧ is_super_admin <$>
      returned (fst (get_user_info world1 settings0 "u1" (Some "root")
                       (module_init settings0)))
    = Some false.
Proof.
  split.
  - destruct (proj1 (super_admin_resolution_on_miss world1 settings_blank_domain "a1"
                       (module_init settings_blank_domain)
                       (module_init_configured settings_blank_domain) eq_refl)
                "ops" "be-luma.com" eq_refl) as (s' & Hrun & _).
    + apply list_elem_of_In. simpl. tauto.
    + change ("ops" +:+ String "@" "be-luma.com") with "ops@be-luma.com" in Hrun.
      rewrite Hrun. reflexivity.
  - destruct (get_user_info world1 settings0 "u1" (Some "root") (module_init settings0))
      as [[ui|e] s'] eqn:Hrun.
    + simpl. f_equal.
      apply (proj2 (super_admin_resolution_on_miss world1 settings0 "u1"
                      (module_init settings0) (module_init_configured settings0) eq_refl)
               "root" ui s' eq_refl); [|exact Hrun].
      intros Hin. apply list_elem_of_In in Hin. simpl in Hin.
      destruct Hin as [Hin|[]]. discriminate.
    + vm_compute in Hrun. discriminate.
Defined.

(** Against C3 as stated. First, the email [ops@be-luma.com] has a
    configured super-admin domain, yet resolving [u1] with it, once [u1] is
    cached from its tenant email, yields an identity that is not a super
    admin. Second, with the empty string among the configured domains the
    email [root], which has no [@], is resolved to a super admin. *)
Lemma super_admin_claim_counterexample :
  (email_domain "ops@be-luma.com" ∈ Config.super_admin_domains settings0
   ∧ is_super_admin <$>
       returned (fst (get_user_info world1 settings0 "u1" (Some "ops@be-luma.com")
                        state_after_u1))
     = Some false)
  ∧ (str_contains "@" "root" = false
     ∧ is_super_admin <$>
         returned (fst (get_user_info world1 settings_blank_domain "u2" (Some "root")
                          (module_init settings_blank_domain)))
       = Some true).
Proof.
  split; split.
  - apply list_elem_of_In. vm_compute. tauto.
  - vm_compute. reflexivity.
  - reflexivity.
  - vm_compute. reflexivity.
Qed.

(** C4. For a subject that is not a super admin and has no live cache
    entry, resolution fails in the order of the ladder: [UserNotFoundError]
    when the user document does not exist; otherwise an
    [AuthorizationError] (403) when the user document has no company id;
    otherwise [CompanyNotFoundError] when the tenant document does not
    exist; otherwise an [AuthorizationError] when the tenant has no project
    bound. In each case the call raises, the cache is left as it was, and
    nothing but the fetches made is added to the trace. *)
Theorem directory_failure_ladder
    (w : World) (settings : Config.Settings) (uid : string)
    (email : option string) (s : State) :
  cache_miss w s uid → super_admin_test settings email = false →
  let fetched_user := logged (EvFetch "users" (PStr uid)) (tick s) in
  (firestore_get w "users" (PStr uid) = Snapshot None →
     get_user_info w settings uid email s
       = (Raise (HTTPExc new_UserNotFoundError), fetched_user))
  ∧ (∀ user_data,
       firestore_get w "users" (PStr uid) = Snapshot (Some user_data) →
       truthy (dict_get user_data "company_id") = false →
       get_user_info w settings uid email s
         = (Raise (HTTPExc (new_AuthorizationError "User not associated with any company")),
            fetched_user))
  ∧ (∀ user_data,
       firestore_get w "users" (PStr uid) = Snapshot (Some user_data) →
       truthy (dict_get user_data "company_id") = true →
       firestore_get w "clients" (dict_get user_data "company_id") = Snapshot None →
       get_user_info w settings uid email s
         = (Raise (HTTPExc new_CompanyNotFoundError),
            logged (EvFetch "clients" (dict_get user_data "company_id")) fetched_user))
  ∧ (∀ user_data client_data,
       firestore_get w "users" (PStr uid) = Snapshot (Some user_data) →
       truthy (dict_get user_data "company_id") = true →
       firestore_get w "clients" (dict_get user_data "company_id")
         = Snapshot (Some client_data) →
       truthy (dict_get client_data "gcpProjectId") = false →
       get_user_info w settings uid email s
         = (Raise (HTTPExc (new_AuthorizationError
                              "Company does not have an associated GCP project")),
            logged (EvFetch "clients" (dict_get user_data "company_id")) fetched_user))
  ∧ (∀ dtl, status_code (new_AuthorizationError dtl) = 403%Z
            ∧ isinstance (HTTPExc (new_AuthorizationError dtl)) AuthorizationError = true
            ∧ isinstance (HTTPExc (new_AuthorizationError dtl)) UserNotFoundError = false
            ∧ isinstance (HTTPExc (new_AuthorizationError dtl)) CompanyNotFoundError = false).
Proof.
  intros Hmiss Hsa fetched_user. repeat split.
  - intros Hu.
    rewrite (get_user_info_miss_failed w settings uid email s
               (HTTPExc new_UserNotFoundError) fetched_user Hmiss); [reflexivity|].
    unfold build_user_info. rewrite Hsa. unfold_m. simpl. rewrite Hu. reflexivity.
  - intros ud Hu Hcid.
    rewrite (get_user_info_miss_failed w settings uid email s
               (HTTPExc (new_AuthorizationError "User not associated with any company"))
               fetched_user Hmiss); [reflexivity|].
    unfold build_user_info. rewrite Hsa. unfold_m. simpl. rewrite Hu. simpl.
    rewrite Hcid. reflexivity.
  - intros ud Hu Hcid Hc.
    rewrite (get_user_info_miss_failed w settings uid email s
               (HTTPExc new_CompanyNotFoundError)
               (logged (EvFetch "clients" (dict_get ud "company_id")) fetched_user)
               Hmiss); [reflexivity|].
    unfold build_user_info. rewrite Hsa. unfold_m. simpl. rewrite Hu. simpl.
    rewrite Hcid. simpl. rewrite Hc. reflexivity.
  - intros ud cd Hu Hcid Hc Hgcp.
    rewrite (get_user_info_miss_failed w settings uid email s
               (HTTPExc (new_AuthorizationError
                           "Company does not have an associated GCP project"))
               (logged (EvFetch "clients" (dict_get ud "company_id")) fetched_user)
               Hmiss); [reflexivity|].
    unfold build_user_info. rewrite Hsa. unfold_m. simpl. rewrite Hu. simpl.
    rewrite Hcid. simpl. rewrite Hc. simpl. rewrite Hgcp. reflexivity.
Qed.

(** One directory for each rung. *)
Lemma directory_failure_ladder_witness :
  get_user_info world_no_user settings0 "u1" (Some "a@tenant.co") (module_init settings0)
    = (Raise (HTTPExc new_UserNotFoundError),
       logged (EvFetch "users" (PStr "u1")) (tick (module_init settings0)))
  ∧ raised (fst (get_user_info world_no_link settings0 "u1" (Some "a@tenant.co")
                   (module_init settings0)))
    = Some (HTTPExc (new_AuthorizationError "User not associated with any company"))
  ∧ raised (fst (get_user_info world_no_tenant settings0 "u1" (Some "a@tenant.co")
                   (module_init settings0)))
    = Some (HTTPExc new_CompanyNotFoundError)
  ∧ raised (fst (get_user_info world_no_project settings0 "u1" (Some "a@tenant.co")
                   (module_init settings0)))
    = Some (HTTPExc (new_AuthorizationError
                       "Company does not have an associated GCP project")).
Proof.
  split; [|split; [|split]].
  - apply (directory_failure_ladder world_no_user settings0 "u1" (Some "a@tenant.co")
             (module_init settings0) eq_refl eq_refl).
    reflexivity.
  - destruct (directory_failure_ladder world_no_link settings0 "u1" (Some "a@tenant.co")
                (module_init settings0) eq_refl eq_refl) as (_ & H & _).
    rewrite (H ∅ eq_refl eq_refl). reflexivity.
  - destruct (directory_failure_ladder world_no_tenant settings0 "u1" (Some "a@tenant.co")
                (module_init settings0) eq_refl eq_refl) as (_ & _ & H & _).
    rewrite (H user_u1 eq_refl eq_refl eq_refl). reflexivity.
  - destruct (directory_failure_ladder world_no_project settings0 "u1" (Some "a@tenant.co")
                (module_init settings0) eq_refl eq_refl) as (_ & _ & _ & H & _).
    rewrite (H user_u1 ∅ eq_refl eq_refl eq_refl eq_refl). reflexivity.
Defined.

(** When the tenant document's [onboardingData] is missing or a map, a
    subject with a user document, a company id and a tenant document that
    binds a project is resolved to [tenant_identity]: its accessible
    projects are the bound project alone, its permissions those of the user
    document or [read] when these are missing or empty. *)
Lemma tenant_resolution_on_miss
    (w : World) (settings : Config.Settings) (uid : string)
    (email : option string) (s : State)
    (user_data client_data onboarding : gmap string PyVal) :
  configured s → cache_miss w s uid → super_admin_test settings email = false →
  firestore_get w "users" (PStr uid) = Snapshot (Some user_data) →
  truthy (dict_get user_data "company_id") = true →
  firestore_get w "clients" (dict_get user_data "company_id")
    = Snapshot (Some client_data) →
  truthy (dict_get client_data "gcpProjectId") = true →
  dict_get_default client_data "onboardingData" (PDict ∅) = PDict onboarding →
  ∃ s', get_user_info w settings uid email s
          = (Return (tenant_identity uid email user_data client_data onboarding), s')
        ∧ link_value <$> cached s' uid
            = Some (tenant_identity uid email user_data client_data onboarding)
        ∧ trace s' = trace s ++ [EvFetch "users" (PStr uid);
                                  EvFetch "clients" (dict_get user_data "company_id")].
Proof.
  intros Hc Hmiss Hsa Hu Hcid Hcl Hgcp Hob.
  assert (Hb : build_user_info w settings uid email (tick s)
               = (Return (tenant_identity uid email user_data client_data onboarding),
                  logged (EvFetch "clients" (dict_get user_data "company_id"))
                    (logged (EvFetch "users" (PStr uid)) (tick s)))).
  { unfold build_user_info. rewrite Hsa. unfold_m. simpl. rewrite Hu. simpl.
    rewrite Hcid. simpl. rewrite Hcl. simpl. rewrite Hgcp. simpl. rewrite Hob.
    reflexivity. }
  destruct (get_user_info_miss_built w settings uid email s _ _ Hc Hmiss Hb)
    as (c' & Hrun & Hf & _).
  eexists. split; [exact Hrun|]. split.
  - unfold cached. simpl. rewrite Hf. reflexivity.
  - simpl. rewrite <- app_assoc. reflexivity.
Qed.

(** The scenario of the specification: [u1] of tenant [t1], bound to
    [proj-42], is resolved to tenant id [t1], the one scope [proj-42], no
    super admin, permission [read]; its request for [proj-99] is denied. *)
Example scenario_u1 :
  returned (fst (get_user_info world1 settings0 "u1" (Some "a@tenant.co")
                   (module_init settings0)))
    = Some identity_u1
  ∧ company_id identity_u1 = PStr "t1"
  ∧ accessible_projects identity_u1 = [PStr "proj-42"]
  ∧ is_super_admin identity_u1 = false
  ∧ permissions identity_u1 = PList [PStr "read"]
  ∧ require_project_access "proj-99" (Some identity_u1)
    = Raise (HTTPExc (new_ProjectAccessDeniedError "proj-99")).
Proof.
  split; [|repeat split].
  destruct (tenant_resolution_on_miss world1 settings0 "u1" (Some "a@tenant.co")
              (module_init settings0) user_u1 tenant_t1 ∅
              (module_init_configured settings0) eq_refl eq_refl eq_refl eq_refl
              eq_refl eq_refl eq_refl) as (s' & Hrun & _).
  rewrite Hrun. reflexivity.
Qed.

(** C5. Resolution does not return an identity for every user with a
    tenant link and a bound scope: when the tenant document carries
    [onboardingData: null], reading the company name raises
    [AttributeError], and the call ends in an [AuthenticationError], although
    the user document, the tenant link and the bound project are all
    there. *)
Theorem null_onboarding_blocks_resolution :
  firestore_get world_null_onboarding "users" (PStr "u1") = Snapshot (Some user_u1)
  ∧ dict_get tenant_t1 "gcpProjectId" = PStr "proj-42"
  ∧ firestore_get world_null_onboarding "clients" (PStr "t1")
    = Snapshot (Some (<["onboardingData" := PNone]> tenant_t1))
  ∧ get_user_info world_null_onboarding settings0 "u1" (Some "a@tenant.co")
      (module_init settings0)
    = (Raise (HTTPExc (new_AuthenticationError
                "Failed to get user information: 'NoneType' object has no attribute 'get'")),
       logged (EvFetch "clients" (PStr "t1"))
         (logged (EvFetch "users" (PStr "u1")) (tick (module_init settings0)))).
Proof.
  split; [reflexivity|]. split; [reflexivity|]. split; [reflexivity|].
  rewrite (get_user_info_miss_failed world_null_onboarding settings0 "u1"
             (Some "a@tenant.co") (module_init settings0)
             (PyExc "AttributeError" "'NoneType' object has no attribute 'get'")
             (logged (EvFetch "clients" (PStr "t1"))
                (logged (EvFetch "users" (PStr "u1")) (tick (module_init settings0))))
             eq_refl eq_refl).
  reflexivity.
Qed.



(** C7. The scope guard raises [ProjectAccessDeniedError] for an identity
    that is not a super admin and a scope that is not among its accessible
    projects, and lets a super admin through for every scope. *)
Theorem scope_guard (user : UserInfo) (scope : string) :
  (is_super_admin user = false →
   PStr scope ∉ accessible_projects user →
   require_project_access scope (Some user)
     = Raise (HTTPExc (new_ProjectAccessDeniedError scope)))
  ∧ (is_super_admin user = true →
     require_project_access scope (Some user) = Return user).
Proof.
  unfold require_project_access, get_current_user, can_access_project. split.
  - intros Hsa Hnot. rewrite Hsa. simpl.
    destruct (str_in_list scope (accessible_projects user)) eqn:E; [|reflexivity].
    apply str_in_list_spec in E. contradiction.
  - intros Hsa. rewrite Hsa. reflexivity.
Qed.

(** [u1] asking for [proj-99], and an administrator asking for [proj-z]. *)
Lemma scope_guard_witness :
  require_project_access "proj-99" (Some identity_u1)
    = Raise (HTTPExc (new_ProjectAccessDeniedError "proj-99"))
  ∧ require_project_access "proj-z" (Some identity_admin) = Return identity_admin.
Proof.
  split.
  - apply (proj1 (scope_guard identity_u1 "proj-99")); [reflexivity|].
    intros Hin. apply list_elem_of_In in Hin. simpl in Hin.
    destruct Hin as [Hin|[]]. discriminate.
  - apply (proj2 (scope_guard identity_admin "proj-z")). reflexivity.
Defined.

(** The expiry check itself, on the paths the prefix test does not take for
    public: a token that the verifier accepts but whose [exp] claim is at or
    before the current time is rejected with [InvalidTokenError]; apart from
    the verification nothing is called. *)
Lemma expired_token_rejected
    (w : World) (settings : Config.Settings) (request : Request)
    (token : string) (decoded : DecodedToken) (exp : Z) (s : State) :
  is_public_path (url_path request) = false →
  authorization request = Some ("Bearer " +:+ token) →
  token ≠ "" →
  verify_id_token w token = Verified decoded →
  tok_exp decoded = Some exp →
  (inject_Z exp <= time_time w)%Q →
  dispatch w settings request s
    = (Raise (HTTPExc new_InvalidTokenError), logged (EvVerify token) s).
Proof.
  intros Hpub Hauth Htok Hver Hexp Hle.
  rewrite (dispatch_bearer_run w settings request token s Hpub Hauth Htok).
  unfold authenticated. unfold_m. simpl. rewrite Hver. simpl. rewrite Hexp.
  apply py_int_ge in Hle. apply Z.leb_le in Hle. rewrite Hle. reflexivity.
Qed.

(** The token valid until 1500, presented at 1500.5. *)
Lemma expired_token_rejected_witness :
  dispatch world1 settings0 (mkRequest "" (Some "Bearer tok-old")) (module_init settings0)
    = (Raise (HTTPExc new_InvalidTokenError),
       logged (EvVerify "tok-old") (module_init settings0)).
Proof.
  apply (expired_token_rejected world1 settings0 (mkRequest "" (Some "Bearer tok-old"))
           "tok-old" token_old 1500%Z (module_init settings0)
           eq_refl eq_refl ltac:(discriminate) eq_refl eq_refl).
  vm_compute. discriminate.
Defined.

(** C8. The expiry check is not reached for the paths of the application:
    a request for a path that begins with a slash, carrying a token that the
    verifier accepts but whose [exp] claim is at or before the current time,
    goes downstream with no identity attached; the verifier is not called
    and the gateway raises no [InvalidTokenError]. *)
Theorem expired_token_forwarded_on_rooted_paths
    (w : World) (settings : Config.Settings) (rest token : string)
    (decoded : DecodedToken) (exp : Z) (s : State) :
  token ≠ "" →
  verify_id_token w token = Verified decoded →
  tok_exp decoded = Some exp →
  (inject_Z exp <= time_time w)%Q →
  dispatch w settings (mkRequest (String "/" rest) (Some ("Bearer " +:+ token))) s
    = (downstream w (mkRequest (String "/" rest) (Some ("Bearer " +:+ token))) None,
       logged (EvCallNext None) s)
  ∧ new_events s
      (snd (dispatch w settings
              (mkRequest (String "/" rest) (Some ("Bearer " +:+ token))) s))
    = [EvCallNext None].
Proof.
  intros _ _ _ _.
  pose proof (proj2 (missing_token_gate w settings
                       (mkRequest (String "/" rest) (Some ("Bearer " +:+ token))) s)
                (rooted_path_is_public rest)) as Hrun.
  split; [exact Hrun|].
  rewrite Hrun. unfold new_events, logged. cbn [snd trace].
  rewrite drop_app_length. reflexivity.
Qed.

(** The token valid until 1500, presented at 1500.5 for a query: the
    application answers 200. *)
Lemma expired_token_forwarded_on_rooted_paths_witness :
  dispatch world1 settings0
      (mkRequest "/api/bigquery/query" (Some "Bearer tok-old")) (module_init settings0)
    = (Return (mkResponse 200 "ok"), logged (EvCallNext None) (module_init settings0))
  ∧ new_events (module_init settings0)
      (snd (dispatch world1 settings0
              (mkRequest "/api/bigquery/query" (Some "Bearer tok-old"))
              (module_init settings0)))
    = [EvCallNext None].
Proof.
  apply (expired_token_forwarded_on_rooted_paths world1 settings0
           "api/bigquery/query" "tok-old" token_old 1500%Z (module_init settings0)
           ltac:(discriminate) eq_refl eq_refl).
  vm_compute. discriminate.
Defined.

(** C9 (amended). Whatever the settings, the cache TTL setting included,
    the identity cache holds at most 1000 entries and keeps an entry for
    300 seconds: an identity stored by a resolution is live exactly at the
    readings below the reading of the store plus 300. *)
Theorem identity_cache_parameters_fixed (settings : Config.Settings) (s : State) :
  reachable settings s →
  maxsize (user_cache s) = 1000%nat
  ∧ ttl (user_cache s) = 300%Q
  ∧ ∀ w uid email ui s1,
      cache_miss w s uid →
      get_user_info w settings uid email s = (Return ui, s1) →
      ∀ now, contains (user_cache s1) now (cache_key_of uid) = true
             ↔ (now < monotonic w (S (timer_reads s)) + 300)%Q.
Proof.
  intros Hr. pose proof (reachable_configured settings s Hr) as Hc.
  destruct Hc as [Hm Ht]. split; [exact Hm|]. split; [exact Ht|].
  intros w uid email ui s1 Hmiss Hrun now.
  destruct (get_user_info_returns settings w uid email s ui s1 (conj Hm Ht) Hrun)
    as (l & Hl & _ & _ & Hexp & _).
  destruct (Hexp Hmiss) as [Hexp' _].
  unfold contains. unfold cached in Hl. rewrite Hl. unfold live.
  rewrite Hexp'. apply Qltb_lt.
Qed.

(** The cache at import under a cache TTL setting of 60, and [u1] stored at
    reading 1. *)
Lemma identity_cache_parameters_fixed_witness :
  maxsize (user_cache (module_init settings_ttl60)) = 1000%nat
  ∧ ttl (user_cache (module_init settings_ttl60)) = 300%Q
  ∧ (contains
       (user_cache (snd (get_user_info world1 settings_ttl60 "u1" (Some "a@tenant.co")
                           (module_init settings_ttl60))))
       (inject_Z 100) (cache_key_of "u1") = true
     ↔ (inject_Z 100 < monotonic world1 1 + 300)%Q).
Proof.
  destruct (identity_cache_parameters_fixed settings_ttl60 (module_init settings_ttl60)
              (reach_init settings_ttl60)) as (Hm & Ht & Hlive).
  split; [exact Hm|]. split; [exact Ht|].
  apply (Hlive world1 "u1" (Some "a@tenant.co") identity_u1 _ eq_refl).
  vm_compute. reflexivity.
Defined.

(** Against C9 as stated: with the cache TTL setting at 60 seconds, an
    identity stored at reading 1 is still served at reading 100. *)
Lemma cache_ttl_setting_ignored :
  Config.cache_ttl settings_ttl60 = 60%Z
  ∧ contains
      (user_cache (snd (get_user_info world1 settings_ttl60 "u1" (Some "a@tenant.co")
                          (module_init settings_ttl60))))
      (inject_Z 100) (cache_key_of "u1") = true
  ∧ ¬ (inject_Z 100 < monotonic world1 1 + inject_Z (Config.cache_ttl settings_ttl60))%Q.
Proof.
  split; [reflexivity|]. split; [vm_compute; reflexivity|].
  vm_compute. discriminate.
Qed.

(** C10. Resolution is keyed by the uid alone. Once [get_user_info uid e1]
    has resolved afresh and returned an identity, which carries [e1] and the
    outcome of the super-admin test on [e1], every call [get_user_info uid
    e2] whose timer readings fall within 300 seconds of the store returns
    that identity, whatever [e2] is. *)
Theorem cache_hit_ignores_email
    (w1 w2 : World) (settings : Config.Settings) (uid : string)
    (e1 e2 : option string) (s s1 : State) (ui : UserInfo) :
  configured s → cache_miss w1 s uid →
  get_user_info w1 settings uid e1 s = (Return ui, s1) →
  (next_reading w2 s1 < monotonic w1 (S (timer_reads s)) + 300)%Q →
  (monotonic w2 (S (timer_reads s1)) < monotonic w1 (S (timer_reads s)) + 300)%Q →
  email ui = e1
  ∧ is_super_admin ui = super_admin_test settings e1
  ∧ ∃ s2, get_user_info w2 settings uid e2 s1 = (Return ui, s2)
          ∧ trace s2 = trace s1.
Proof.
  intros Hc Hmiss Hrun H1 H2.
  destruct (get_user_info_returns settings w1 uid e1 s ui s1 Hc Hrun)
    as (l & Hl & Hv & _ & Hexp & _).
  destruct (Hexp Hmiss) as (Hexp' & s0 & Hb).
  destruct (build_user_info_fields w1 settings uid e1 _ _ _ Hb) as (_ & He & Hsa).
  split; [exact He|]. split; [exact Hsa|].
  rewrite <- Hexp' in H1, H2.
  destruct (get_user_info_hit settings w2 uid e2 s1 l Hl H1 H2) as (c' & Hrun2 & _).
  rewrite Hv in Hrun2. eexists. split; [exact Hrun2|reflexivity].
Qed.

(** [u1], cached from its tenant email, asked for with an administrator's
    email. *)
Lemma cache_hit_ignores_email_witness :
  email identity_u1 = Some "a@tenant.co"
  ∧ is_super_admin identity_u1 = super_admin_test settings0 (Some "a@tenant.co")
  ∧ ∃ s2, get_user_info world1 settings0 "u1" (Some "ops@be-luma.com") state_after_u1
            = (Return identity_u1, s2)
          ∧ trace s2 = trace state_after_u1.
Proof.
  apply (cache_hit_ignores_email world1 world1 settings0 "u1"
           (Some "a@tenant.co") (Some "ops@be-luma.com")
           (module_init settings0) state_after_u1 identity_u1
           (module_init_configured settings0) eq_refl eq_refl);
    reflexivity.
Defined.

End Claims.
